(** * Resource graph of lib/stack.ts

    A shallow embedding of the CDK stack in [src/lib/stack.ts]. Each
    [new X(this, "Id", props)] adds one construct (a resource descriptor)
    to the construct tree of the stack; [addIngressRule] appends to the
    rule set of a security group.  The stack constructor is a sequence of
    such steps, written in a small state-and-error monad over the graph
    under construction.  Construct ids are the ids the source passes to
    the constructors; handles returned by the builder methods are those
    ids. *)

From Stdlib Require Import String List ZArith Lia Sorted Bool Relations.
Import ListNotations.
Open Scope string_scope.
Set Warnings "-register-all".

(** ** Values of construct properties *)

(** A property value as CDK holds it before synthesis: literals, object
    references, tokens that stand for an attribute of another construct,
    and the token returned by [secret.secretValueFromJson(field).unsafeUnwrap()]
    (a dynamic reference to a field of the generated secret of a
    construct, rendered as a reference in the template). *)
Inductive value : Type :=
| VStr (s : string)
| VNum (z : Z)
| VBool (b : bool)
| VRef (id : string)
| VAttr (id : string) (attr : string)
| VSecret (id : string) (field : string)
| VList (l : list value)
| VObj (fs : list (string * value)).

Inductive kind : Type :=
| HostedZoneImport | Vpc | WebACL | Bucket | SecurityGroup | DatabaseCluster
| CacheCluster | EcsCluster | Certificate | LoadBalancedFargateService
| ScalableTaskCount | ScalingPolicy | IamPolicy | Distribution | ARecord.

Scheme Equality for kind.

Record node : Type := mk_node {
  n_id : string;
  n_kind : kind;
  n_props : list (string * value);
  (** the construct handles the builder received and wired into it *)
  n_deps : list string
}.

(** [ec2.Port.tcp(p)] *)
Inductive port : Type := Tcp (p : Z).

Definition port_eqb (a b : port) : bool :=
  match a, b with Tcp x, Tcp y => Z.eqb x y end.

(** An ingress rule of a security group: the group, the peer (the
    network identity admitted) and the port. *)
Record ingress_rule : Type := mk_rule {
  r_group : string;
  r_peer : string;
  r_port : port
}.

Definition rule_eqb (a b : ingress_rule) : bool :=
  String.eqb (r_group a) (r_group b) && String.eqb (r_peer a) (r_peer b)
  && port_eqb (r_port a) (r_port b).

Record graph : Type := mk_graph {
  g_nodes : list node;   (** in construction order *)
  g_rules : list ingress_rule
}.

Definition empty_graph : graph := mk_graph [] [].

(** ** The construction monad *)

(** Construction fails only where CDK throws: a second child with an id
    already used in the same scope. *)
Inductive build_error : Type :=
| DuplicateConstructId (id : string).

Inductive result (A : Type) : Type :=
| Ok (a : A)
| Err (e : build_error).
Arguments Ok {A} a.
Arguments Err {A} e.

Definition M (A : Type) : Type := graph -> result (A * graph).

Definition ret {A} (a : A) : M A := fun g => Ok (a, g).

Definition bind {A B} (m : M A) (k : A -> M B) : M B :=
  fun g => match m g with
           | Ok (a, g') => k a g'
           | Err e => Err e
           end.

Notation "x <- m ;; k" := (bind m (fun x => k))
  (at level 61, m at next level, right associativity).
Notation "m ;;; k" := (bind m (fun _ => k))
  (at level 61, right associativity).

Definition has_node (g : graph) (id : string) : bool :=
  existsb (fun n => String.eqb (n_id n) id) (g_nodes g).

(** [new X(this, id, props)]: adds the construct, or throws when the id
    is taken. *)
Definition new_construct (id : string) (k : kind)
    (props : list (string * value)) (deps : list string) : M string :=
  fun g =>
    if has_node g id then Err (DuplicateConstructId id)
    else Ok (id, mk_graph (g_nodes g ++ [mk_node id k props deps]) (g_rules g)).

(** [sg.addIngressRule(peer, port)]: a rule already present is not added
    a second time. *)
Definition addIngressRule (sg peer : string) (p : port) : M unit :=
  fun g =>
    let r := mk_rule sg peer p in
    if existsb (rule_eqb r) (g_rules g) then Ok (tt, g)
    else Ok (tt, mk_graph (g_nodes g) (g_rules g ++ [r])).

Definition set_prop (key : string) (v : value) (props : list (string * value))
    : list (string * value) :=
  (filter (fun kv => negb (String.eqb (fst kv) key)) props) ++ [(key, v)].

(** Mutation of a property of an existing construct (used by
    [targetGroup.configureHealthCheck]). *)
Definition update_prop (id key : string) (v : value) : M unit :=
  fun g =>
    Ok (tt, mk_graph
              (map (fun n => if String.eqb (n_id n) id
                             then mk_node (n_id n) (n_kind n) (set_prop key v (n_props n)) (n_deps n)
                             else n) (g_nodes g))
              (g_rules g)).

(** ** Configuration

    The module-level constants of stack.ts: [HOSTED_ZONE_ID], [ZONE_NAME],
    [CONTAINER_PORT] and [CONTAINER_HEALTHCHECK_PATH]. *)
Record config : Type := mk_config {
  HOSTED_ZONE_ID : string;
  ZONE_NAME : string;
  CONTAINER_PORT : Z;
  CONTAINER_HEALTHCHECK_PATH : string
}.

Definition source_config : config := mk_config "xxx" "yyy.com" 80 "/foo/bar.html".

(** ** Enumerations of the CloudFront library used by the stack *)

Inductive OriginProtocolPolicy : Type := HTTP_ONLY | MATCH_VIEWER | HTTPS_ONLY.

Definition origin_protocol_policy_value (p : OriginProtocolPolicy) : string :=
  match p with
  | HTTP_ONLY => "http-only"
  | MATCH_VIEWER => "match-viewer"
  | HTTPS_ONLY => "https-only"
  end.

Inductive ViewerProtocolPolicy : Type := V_HTTPS_ONLY | REDIRECT_TO_HTTPS | ALLOW_ALL.

Definition viewer_protocol_policy_value (p : ViewerProtocolPolicy) : string :=
  match p with
  | V_HTTPS_ONLY => "https-only"
  | REDIRECT_TO_HTTPS => "redirect-to-https"
  | ALLOW_ALL => "allow-all"
  end.

Definition AllowedMethods_ALLOW_ALL : value :=
  VList (map VStr ["GET"; "HEAD"; "OPTIONS"; "PUT"; "PATCH"; "POST"; "DELETE"]).

Definition CachedMethods_CACHE_GET_HEAD_OPTIONS : value :=
  VList (map VStr ["GET"; "HEAD"; "OPTIONS"]).

(** ** Web ACL rules *)

(** One element of the [rules] array of [createWafWebAcl]. *)
Record waf_rule : Type := mk_waf_rule {
  w_name : string;
  w_priority : Z;
  w_override_none : bool;
  w_vendor : string;
  w_sampled : bool;
  w_metrics : bool;
  w_metric_name : string
}.

(** [array.map((x, index) => f x index)] *)
Fixpoint map_index_from {A B} (f : A -> nat -> B) (i : nat) (l : list A) : list B :=
  match l with
  | [] => []
  | x :: r => f x i :: map_index_from f (S i) r
  end.

Definition map_index {A B} (f : A -> nat -> B) (l : list A) : list B :=
  map_index_from f 0 l.

Definition managed_rule (name : string) (index : nat) : waf_rule :=
  mk_waf_rule name (Z.of_nat index + 2) true "AWS" true true (name ++ "Metric").

Definition managed_rule_names : list string :=
  ["AWSManagedRulesCommonRuleSet"; "AWSManagedRulesPHPRuleSet";
   "AWSManagedRulesWordPressRuleSet"; "AWSManagedRulesSQLiRuleSet"].

Definition waf_rules : list waf_rule := map_index managed_rule managed_rule_names.

Definition waf_rule_value (r : waf_rule) : value :=
  VObj [("name", VStr (w_name r));
        ("priority", VNum (w_priority r));
        ("overrideAction", if w_override_none r then VObj [("none", VObj [])] else VObj []);
        ("statement", VObj [("managedRuleGroupStatement",
                             VObj [("vendorName", VStr (w_vendor r)); ("name", VStr (w_name r))])]);
        ("visibilityConfig", VObj [("sampledRequestsEnabled", VBool (w_sampled r));
                                   ("cloudWatchMetricsEnabled", VBool (w_metrics r));
                                   ("metricName", VStr (w_metric_name r))])].

(** [new wafv2.CfnWebACL(this, id, {...})]: an L1 construct, its props
    are taken as given. *)
Definition CfnWebACL (id : string) (rules : list waf_rule) : M string :=
  new_construct id WebACL
    [("defaultAction", VObj [("allow", VObj [])]);
     ("scope", VStr "CLOUDFRONT");
     ("rules", VList (map waf_rule_value rules));
     ("visibilityConfig", VObj [("cloudWatchMetricsEnabled", VBool true);
                                ("metricName", VStr "WebAcl");
                                ("sampledRequestsEnabled", VBool true)])]
    [].

(** ** The builder methods of [Stack] *)

Section Builders.

Variable cfg : config.

Definition importRoute53Zone : M string :=
  new_construct "Zone" HostedZoneImport
    [("hostedZoneId", VStr (HOSTED_ZONE_ID cfg)); ("zoneName", VStr (ZONE_NAME cfg))] [].

(** [route53Zone.zoneName] of a zone imported from its attributes is the
    literal it was imported with. *)
Definition zoneName (route53Zone : string) : string := ZONE_NAME cfg.

Definition createCertificate (route53Zone : string) : M string :=
  new_construct "Certificate" Certificate
    [("domainName", VStr (zoneName route53Zone));
     ("subjectAlternativeNames", VList [VStr ("*." ++ zoneName route53Zone)]);
     ("validation", VObj [("method", VStr "DNS"); ("hostedZone", VRef route53Zone)])]
    [route53Zone].

Definition createVpc : M string :=
  new_construct "Vpc" Vpc
    [("maxAzs", VNum 2); ("natGateways", VNum 1);
     ("subnetConfiguration",
       VList [VObj [("cidrMask", VNum 24); ("name", VStr "public"); ("subnetType", VStr "Public")];
              VObj [("cidrMask", VNum 24); ("name", VStr "private"); ("subnetType", VStr "Private")]])]
    [].

Definition createBucket : M string := new_construct "Bucket" Bucket [] [].

Definition createEcsCluster (vpc : string) : M string :=
  new_construct "Cluster" EcsCluster [("vpc", VRef vpc)] [vpc].

(** The network identity of the service created by
    [ApplicationLoadBalancedFargateService]:
    [service.service.connections.securityGroups[0]]. *)
Definition service_security_group (service : string) : string :=
  service ++ "/Service/SecurityGroup".

Definition createLoadBalancedEcsService (ecsCluster rdsCluster cacheCluster
    rdsSecurityGroup cacheSecurityGroup certificate bucket : string) : M string :=
  service <- new_construct "Service" LoadBalancedFargateService
    [("cluster", VRef ecsCluster);
     ("memoryLimitMiB", VNum 1024);
     ("listenerPort", VNum 443);
     ("taskImageOptions",
       VObj [("image", VObj [("fromAsset", VStr "./app")]);
             ("containerPort", VNum (CONTAINER_PORT cfg));
             ("environment",
               VObj [("DB_HOST", VAttr rdsCluster "clusterEndpoint.hostname");
                     ("DB_USER", VSecret rdsCluster "username");
                     ("DB_PASSWORD", VSecret rdsCluster "password");
                     ("DB_NAME", VStr "wordpress");
                     ("CACHE_HOST", VAttr cacheCluster "attrRedisEndpointAddress")])]);
     ("desiredCount", VNum 2);
     ("certificate", VRef certificate)]
    [ecsCluster; rdsCluster; cacheCluster; rdsSecurityGroup; cacheSecurityGroup;
     certificate; bucket] ;;
  update_prop service "healthCheck" (VObj [("path", VStr (CONTAINER_HEALTHCHECK_PATH cfg))]) ;;;
  addIngressRule rdsSecurityGroup (service_security_group service) (Tcp 3306) ;;;
  addIngressRule cacheSecurityGroup (service_security_group service) (Tcp 6379) ;;;
  scaling <- new_construct (service ++ "/Service/TaskCount") ScalableTaskCount
    [("minCapacity", VNum 1); ("maxCapacity", VNum 3)] [service] ;;
  new_construct (scaling ++ "/CpuScaling") ScalingPolicy
    [("predefinedMetric", VStr "ECSServiceAverageCPUUtilization");
     ("targetUtilizationPercent", VNum 50)] [scaling] ;;;
  new_construct (scaling ++ "/RequestScaling") ScalingPolicy
    [("predefinedMetric", VStr "ALBRequestCountPerTarget");
     ("requestsPerTarget", VNum 10000);
     ("targetGroup", VAttr service "targetGroup")] [scaling; service] ;;;
  new_construct (service ++ "/TaskDef/TaskRole/DefaultPolicy") IamPolicy
    [("grantReadWrite", VRef bucket); ("role", VAttr service "taskDefinition.taskRole")]
    [bucket; service] ;;;
  ret service.

Definition instance_type_m7g_medium : value := VStr "m7g.medium".

Definition createRdsCluster (vpc : string) : M (string * string) :=
  rdsSecurityGroup <- new_construct "RdsSecurityGroup" SecurityGroup
    [("vpc", VRef vpc); ("description", VStr "Security group for RDS cluster")] [vpc] ;;
  rdsCluster <- new_construct "Database" DatabaseCluster
    [("engine", VObj [("engine", VStr "aurora-mysql"); ("version", VStr "3.07.1")]);
     ("writer", VObj [("id", VStr "writer"); ("instanceType", instance_type_m7g_medium)]);
     ("readers", VList [VObj [("id", VStr "reader"); ("instanceType", instance_type_m7g_medium)]]);
     ("defaultDatabaseName", VStr "mysql");
     ("vpc", VRef vpc);
     ("securityGroups", VList [VRef rdsSecurityGroup])]
    [vpc; rdsSecurityGroup] ;;
  ret (rdsSecurityGroup, rdsCluster).

Definition createCacheCluster (vpc : string) : M (string * string) :=
  cacheSecurityGroup <- new_construct "CacheSecurityGroup" SecurityGroup
    [("vpc", VRef vpc); ("description", VStr "Security group for Redis cache cluster")] [vpc] ;;
  cacheCluster <- new_construct "CacheCluster" CacheCluster
    [("engine", VStr "redis"); ("engineVersion", VStr "7.0"); ("numCacheNodes", VNum 2);
     ("cacheNodeType", VStr "cache.t6g.large");
     ("vpcSecurityGroupIds", VList [VAttr cacheSecurityGroup "securityGroupId"])]
    [cacheSecurityGroup] ;;
  ret (cacheSecurityGroup, cacheCluster).

Definition createWafWebAcl : M string := CfnWebACL "WebAcl" waf_rules.

Definition createCloudfrontDistribution (route53Zone certificate loadBalancedEcsService
    wafWebAcl : string) : M string :=
  let origin :=
    VObj [("loadBalancer", VAttr loadBalancedEcsService "loadBalancer");
          ("protocolPolicy", VStr (origin_protocol_policy_value HTTPS_ONLY));
          ("httpPort", VNum 80);
          ("httpsPort", VNum 443)] in
  new_construct "Distribution" Distribution
    [("defaultBehavior",
       VObj [("origin", origin);
             ("viewerProtocolPolicy", VStr (viewer_protocol_policy_value REDIRECT_TO_HTTPS));
             ("allowedMethods", AllowedMethods_ALLOW_ALL);
             ("cachedMethods", CachedMethods_CACHE_GET_HEAD_OPTIONS)]);
     ("domainNames", VList [VStr (zoneName route53Zone)]);
     ("certificate", VRef certificate);
     ("webAclId", VAttr wafWebAcl "attrArn")]
    [route53Zone; certificate; loadBalancedEcsService; wafWebAcl].

Definition createRoute53Record (route53Zone cloudfrontDistribution : string) : M unit :=
  new_construct "ARecord" ARecord
    [("target", VObj [("alias", VObj [("cloudFrontTarget", VRef cloudfrontDistribution)])]);
     ("zone", VRef route53Zone)]
    [route53Zone; cloudfrontDistribution] ;;;
  ret tt.

(** The body of [Stack.constructor]. *)
Definition Stack_constructor : M unit :=
  route53Zone <- importRoute53Zone ;;
  vpc <- createVpc ;;
  wafWebAcl <- createWafWebAcl ;;
  bucket <- createBucket ;;
  rds <- createRdsCluster vpc ;;
  let (rdsSecurityGroup, rdsCluster) := rds in
  cache <- createCacheCluster vpc ;;
  let (cacheSecurityGroup, cacheCluster) := cache in
  ecsCluster <- createEcsCluster vpc ;;
  certificate <- createCertificate route53Zone ;;
  loadBalancedEcsService <- createLoadBalancedEcsService ecsCluster rdsCluster cacheCluster
                              rdsSecurityGroup cacheSecurityGroup certificate bucket ;;
  cloudfrontDistribution <- createCloudfrontDistribution route53Zone certificate
                              loadBalancedEcsService wafWebAcl ;;
  createRoute53Record route53Zone cloudfrontDistribution.

End Builders.

(** One build pass: the constructor run on the empty construct tree. *)
Definition build (cfg : config) : result graph :=
  match Stack_constructor cfg empty_graph with
  | Ok (_, g) => Ok g
  | Err e => Err e
  end.

(** ** Observations on a built graph *)

Fixpoint assoc (key : string) (fs : list (string * value)) : option value :=
  match fs with
  | [] => None
  | (k, v) :: r => if String.eqb k key then Some v else assoc key r
  end.

Definition prop (n : node) (key : string) : option value := assoc key (n_props n).

Fixpoint lookup_path (v : value) (path : list string) : option value :=
  match path with
  | [] => Some v
  | k :: r =>
      match v with
      | VObj fs => match assoc k fs with Some v' => lookup_path v' r | None => None end
      | _ => None
      end
  end.

Definition node_path (n : node) (path : list string) : option value :=
  lookup_path (VObj (n_props n)) path.

Definition find_node (g : graph) (id : string) : option node :=
  find (fun n => String.eqb (n_id n) id) (g_nodes g).

Definition nodes_of_kind (g : graph) (k : kind) : list node :=
  filter (fun n => kind_beq (n_kind n) k) (g_nodes g).

Definition kind_of (g : graph) (id : string) : option kind :=
  option_map n_kind (find_node g id).

(** [P] holds of the graph of the build pass, and the build pass succeeds. *)
Definition on_build (cfg : config) (P : graph -> Prop) : Prop :=
  match build cfg with
  | Ok g => P g
  | Err _ => False
  end.

(** Every reference to a field of a generated secret in a value, with the
    property path where it sits. *)
Fixpoint secret_refs (path : list string) (v : value) : list (list string * (string * string)) :=
  match v with
  | VSecret id f => [(path, (id, f))]
  | VList l =>
      (fix go (l : list value) : list (list string * (string * string)) :=
         match l with
         | [] => []
         | x :: r => (secret_refs path x ++ go r)%list
         end) l
  | VObj fs =>
      (fix go (fs : list (string * value)) : list (list string * (string * string)) :=
         match fs with
         | [] => []
         | (k, x) :: r => (secret_refs (path ++ [k]) x ++ go r)%list
         end) fs
  | _ => []
  end.

Definition graph_secret_refs (g : graph) : list (string * (list string * (string * string))) :=
  flat_map (fun n => map (fun p => (n_id n, p)) (secret_refs [] (VObj (n_props n))))
           (g_nodes g).

Definition service_env_path (var : string) : list string :=
  ["taskImageOptions"; "environment"; var].

Definition service_env (g : graph) (var : string) : option value :=
  match find_node g "Service" with
  | Some s => node_path s (service_env_path var)
  | None => None
  end.

Definition num_of (v : option value) : option Z :=
  match v with Some (VNum z) => Some z | _ => None end.

Definition desired_count (g : graph) : option Z :=
  match find_node g "Service" with
  | Some s => num_of (prop s "desiredCount")
  | None => None
  end.

(** The bounds of the scalable task count of the service. *)
Definition scaling_bounds (g : graph) : option (Z * Z) :=
  match nodes_of_kind g ScalableTaskCount with
  | [t] => match num_of (prop t "minCapacity"), num_of (prop t "maxCapacity") with
           | Some lo, Some hi => Some (lo, hi)
           | _, _ => None
           end
  | _ => None
  end.

(** The scaling policies attached to the scalable target [t]. *)
Definition policies_of (g : graph) (t : string) : list node :=
  filter (fun p => existsb (String.eqb t) (n_deps p)) (nodes_of_kind g ScalingPolicy).

Definition policy_target (p : node) : option value :=
  match prop p "targetUtilizationPercent" with
  | Some v => Some v
  | None => prop p "requestsPerTarget"
  end.

(** Rules of a security group whose peer is the network identity of a
    managed service that received the group as a dependency. *)
Definition rule_from_dependent_service (g : graph) (r : ingress_rule) : bool :=
  existsb (fun s => kind_beq (n_kind s) LoadBalancedFargateService
                    && String.eqb (r_peer r) (service_security_group (n_id s))
                    && existsb (String.eqb (r_group r)) (n_deps s))
          (g_nodes g).

Fixpoint rules_nodup (l : list ingress_rule) : bool :=
  match l with
  | [] => true
  | r :: t => negb (existsb (rule_eqb r) t) && rules_nodup t
  end.

(** Position of the construct with the given id in construction order. *)
Fixpoint index_of (id : string) (l : list node) : option nat :=
  match l with
  | [] => None
  | n :: r => if String.eqb (n_id n) id then Some 0 else option_map S (index_of id r)
  end.

Definition dep_before (nodes : list node) (i : nat) (d : string) : bool :=
  match index_of d nodes with
  | Some j => Nat.ltb j i
  | None => false
  end.

Fixpoint deps_before_from (nodes : list node) (i : nat) (l : list node) : bool :=
  match l with
  | [] => true
  | n :: r =>
      match index_of (n_id n) nodes with Some k => Nat.eqb k i | None => false end
      && forallb (dep_before nodes i) (n_deps n)
      && deps_before_from nodes (S i) r
  end.

(** Every construct is found at its own position and each of its
    dependencies at a strictly smaller one. *)
Definition deps_before (nodes : list node) : bool := deps_before_from nodes 0 nodes.

Definition deps_constructed_earlier (g : graph) : Prop :=
  forall i n, nth_error (g_nodes g) i = Some n ->
  forall d, In d (n_deps n) ->
  exists j m, j < i /\ nth_error (g_nodes g) j = Some m /\ n_id m = d.

(** The dependency edges of the graph and their transitive closure. *)
Definition edge (g : graph) (a b : string) : Prop :=
  exists n, In n (g_nodes g) /\ n_id n = a /\ In b (n_deps n).

Definition depends_on (g : graph) : string -> string -> Prop := clos_trans string (edge g).

Definition graph_edges (g : graph) : list (string * string) :=
  flat_map (fun n => map (fun d => (n_id n, d)) (n_deps n)) (g_nodes g).

Definition graph_attrs (g : graph) : list (string * kind * list (string * value)) :=
  map (fun n => (n_id n, n_kind n, n_props n)) (g_nodes g).

(** ** Supporting lemmas *)

Lemma port_eqb_eq (a b : port) : port_eqb a b = true <-> a = b.
Proof.
  destruct a as [x], b as [y]; simpl; rewrite Z.eqb_eq; split; congruence.
Qed.

Lemma rule_eqb_eq (a b : ingress_rule) : rule_eqb a b = true <-> a = b.
Proof.
  destruct a as [ga pa ta], b as [gb pb tb]; unfold rule_eqb; simpl.
  rewrite !andb_true_iff, !String.eqb_eq, port_eqb_eq.
  split; [intros [[-> ->] ->]; reflexivity | intros H; injection H; auto].
Qed.

Lemma rules_nodup_NoDup (l : list ingress_rule) : rules_nodup l = true -> NoDup l.
Proof.
  induction l as [|r t IH]; simpl; intros H; constructor.
  - apply andb_true_iff in H as [H _]. apply negb_true_iff in H.
    intros Hin. assert (existsb (rule_eqb r) t = true) as E.
    { apply existsb_exists. exists r. split; [exact Hin | apply rule_eqb_eq; reflexivity]. }
    congruence.
  - apply andb_true_iff in H as [_ H]. exact (IH H).
Qed.

(** Appending the same rule twice leaves one copy. *)
Lemma addIngressRule_idempotent (sg peer : string) (p : port) (g : graph) :
  bind (addIngressRule sg peer p) (fun _ => addIngressRule sg peer p) g
  = addIngressRule sg peer p g.
Proof.
  unfold bind, addIngressRule.
  destruct (existsb (rule_eqb (mk_rule sg peer p)) (g_rules g)) eqn:E.
  - rewrite E. reflexivity.
  - simpl. rewrite existsb_app. simpl.
    assert (rule_eqb (mk_rule sg peer p) (mk_rule sg peer p) = true) as R
      by (apply rule_eqb_eq; reflexivity).
    rewrite R, orb_true_r. reflexivity.
Qed.

Lemma rule_from_dependent_service_sound (g : graph) (r : ingress_rule) :
  rule_from_dependent_service g r = true ->
  exists s, In s (g_nodes g) /\ n_kind s = LoadBalancedFargateService
            /\ r_peer r = service_security_group (n_id s) /\ In (r_group r) (n_deps s).
Proof.
  unfold rule_from_dependent_service. intros H.
  apply existsb_exists in H as [s [Hin Hs]].
  rewrite !andb_true_iff in Hs. destruct Hs as [[Hk Hp] Hd].
  apply existsb_exists in Hd as [x [Hx Ex]]. apply String.eqb_eq in Ex. subst x.
  apply String.eqb_eq in Hp.
  exists s. repeat split; auto. destruct (n_kind s); try discriminate; reflexivity.
Qed.

Lemma index_of_nth (id : string) (l : list node) (j : nat) :
  index_of id l = Some j -> exists m, nth_error l j = Some m /\ n_id m = id.
Proof.
  revert j. induction l as [|n r IH]; simpl; intros j H; [discriminate|].
  destruct (String.eqb (n_id n) id) eqn:E.
  - injection H as <-. exists n. split; [reflexivity | apply String.eqb_eq; exact E].
  - destruct (index_of id r) as [j'|] eqn:F; simpl in H; [|discriminate].
    injection H as <-. apply (IH j' eq_refl).
Qed.

Lemma deps_before_from_spec (nodes : list node) (l : list node) (k : nat) :
  deps_before_from nodes k l = true ->
  forall i n, nth_error l i = Some n ->
  index_of (n_id n) nodes = Some (k + i)
  /\ forall d, In d (n_deps n) -> exists j, index_of d nodes = Some j /\ j < k + i.
Proof.
  revert k. induction l as [|x r IH]; intros k H i n Hn.
  - destruct i; discriminate.
  - simpl in H. rewrite !andb_true_iff in H. destruct H as [[Hi Hd] Hr].
    destruct i as [|i]; simpl in Hn.
    + injection Hn as <-. rewrite Nat.add_0_r. split.
      * destruct (index_of (n_id x) nodes) as [k'|]; [|discriminate].
        apply Nat.eqb_eq in Hi. subst. reflexivity.
      * intros d Hdin. rewrite forallb_forall in Hd. specialize (Hd d Hdin).
        unfold dep_before in Hd. destruct (index_of d nodes) as [j|]; [|discriminate].
        apply Nat.ltb_lt in Hd. exists j. split; [reflexivity | exact Hd].
    + destruct (IH (S k) Hr i n Hn) as [H1 H2].
      rewrite <- Nat.add_succ_comm. split; [exact H1 | exact H2].
Qed.

Lemma deps_before_earlier (g : graph) :
  deps_before (g_nodes g) = true -> deps_constructed_earlier g.
Proof.
  intros H i n Hn d Hd.
  destruct (deps_before_from_spec _ _ 0 H i n Hn) as [_ H2].
  destruct (H2 d Hd) as [j [Hj Hlt]].
  destruct (index_of_nth _ _ _ Hj) as [m [Hm Hid]].
  exists j, m. repeat split; auto.
Qed.

Lemma edge_index (g : graph) (a b : string) :
  deps_before (g_nodes g) = true -> edge g a b ->
  exists i j, index_of a (g_nodes g) = Some i /\ index_of b (g_nodes g) = Some j /\ j < i.
Proof.
  intros H [n [Hin [<- Hb]]].
  apply In_nth_error in Hin as [i Hi].
  destruct (deps_before_from_spec _ _ 0 H i n Hi) as [H1 H2].
  destruct (H2 b Hb) as [j [Hj Hlt]].
  exists i, j. repeat split; auto.
Qed.

Lemma depends_on_index (g : graph) (a b : string) :
  deps_before (g_nodes g) = true -> depends_on g a b ->
  exists i j, index_of a (g_nodes g) = Some i /\ index_of b (g_nodes g) = Some j /\ j < i.
Proof.
  intros H Hab. induction Hab as [a b E | a b c _ IH1 _ IH2].
  - exact (edge_index g a b H E).
  - destruct IH1 as [i [j [Ha [Hb Hij]]]]. destruct IH2 as [j' [k [Hb' [Hc Hjk]]]].
    rewrite Hb in Hb'. injection Hb' as <-.
    exists i, k. repeat split; auto. lia.
Qed.

Lemma deps_before_acyclic (g : graph) :
  deps_before (g_nodes g) = true -> forall a, ~ depends_on g a a.
Proof.
  intros H a Ha. destruct (depends_on_index g a a H Ha) as [i [j [Hi [Hj Hlt]]]].
  rewrite Hi in Hj. injection Hj as ->. lia.
Qed.

Lemma build_succeeds (cfg : config) : exists g, build cfg = Ok g.
Proof.
  destruct cfg; vm_compute. eexists. reflexivity.
Qed.

Lemma build_rules_facts (cfg : config) :
  on_build cfg (fun g =>
    forallb (rule_from_dependent_service g) (g_rules g) = true
    /\ rules_nodup (g_rules g) = true).
Proof.
  destruct cfg; vm_compute; split; reflexivity.
Qed.

Lemma build_order_facts (cfg : config) :
  on_build cfg (fun g =>
    map n_kind (g_nodes g) =
      [HostedZoneImport; Vpc; WebACL; Bucket; SecurityGroup; DatabaseCluster;
       SecurityGroup; CacheCluster; EcsCluster; Certificate; LoadBalancedFargateService;
       ScalableTaskCount; ScalingPolicy; ScalingPolicy; IamPolicy; Distribution; ARecord]
    /\ deps_before (g_nodes g) = true).
Proof.
  destruct cfg; vm_compute; split; reflexivity.
Qed.

(** *** CloudFront protocol policies *)

Inductive scheme : Type := Http | Https.

Definition parse_origin_protocol_policy (s : string) : option OriginProtocolPolicy :=
  if String.eqb s "http-only" then Some HTTP_ONLY
  else if String.eqb s "match-viewer" then Some MATCH_VIEWER
  else if String.eqb s "https-only" then Some HTTPS_ONLY
  else None.

Definition parse_viewer_protocol_policy (s : string) : option ViewerProtocolPolicy :=
  if String.eqb s "https-only" then Some V_HTTPS_ONLY
  else if String.eqb s "redirect-to-https" then Some REDIRECT_TO_HTTPS
  else if String.eqb s "allow-all" then Some ALLOW_ALL
  else None.

(** Scheme and port CloudFront uses towards the origin for a viewer
    request made over [s]. *)
Definition origin_connection (p : OriginProtocolPolicy) (httpPort httpsPort : Z) (s : scheme)
    : scheme * Z :=
  match p, s with
  | HTTP_ONLY, _ => (Http, httpPort)
  | HTTPS_ONLY, _ => (Https, httpsPort)
  | MATCH_VIEWER, Http => (Http, httpPort)
  | MATCH_VIEWER, Https => (Https, httpsPort)
  end.

Inductive viewer_outcome : Type := Forward | RedirectTo (s : scheme) | Forbidden.

(** What CloudFront does with a viewer request made over [s]. *)
Definition viewer_response (p : ViewerProtocolPolicy) (s : scheme) : viewer_outcome :=
  match p, s with
  | ALLOW_ALL, _ => Forward
  | _, Https => Forward
  | REDIRECT_TO_HTTPS, Http => RedirectTo Https
  | V_HTTPS_ONLY, Http => Forbidden
  end.

Record distribution_view : Type := mk_distribution_view {
  dv_origin_policy : OriginProtocolPolicy;
  dv_http_port : Z;
  dv_https_port : Z;
  dv_viewer_policy : ViewerProtocolPolicy
}.

Definition str_of (v : option value) : option string :=
  match v with Some (VStr s) => Some s | _ => None end.

Definition view_distribution (d : node) : option distribution_view :=
  match option_map parse_origin_protocol_policy
          (str_of (node_path d ["defaultBehavior"; "origin"; "protocolPolicy"])),
        num_of (node_path d ["defaultBehavior"; "origin"; "httpPort"]),
        num_of (node_path d ["defaultBehavior"; "origin"; "httpsPort"]),
        option_map parse_viewer_protocol_policy
          (str_of (node_path d ["defaultBehavior"; "viewerProtocolPolicy"])) with
  | Some (Some op), Some hp, Some sp, Some (Some vp) => Some (mk_distribution_view op hp sp vp)
  | _, _, _, _ => None
  end.

(** The dependencies of [n] that are constructs of kind [k]. *)
Definition deps_of_kind (g : graph) (n : node) (k : kind) : list string :=
  filter (fun d => match kind_of g d with Some k' => kind_beq k' k | None => false end)
         (n_deps n).

Definition strings_of (l : list value) : list string :=
  flat_map (fun v => match v with VStr s => [s] | _ => [] end) l.

(** The domain names bound to a distribution. *)
Definition domain_names_of (d : node) : list string :=
  match prop d "domainNames" with Some (VList l) => strings_of l | _ => [] end.

(** The domain set of a certificate: its domain name and its subject
    alternative names. *)
Definition certificate_domains (c : node) : list string :=
  match prop c "domainName", prop c "subjectAlternativeNames" with
  | Some (VStr s), Some (VList l) => s :: strings_of l
  | Some (VStr s), _ => [s]
  | _, _ => []
  end.

Definition scenario_A_config : config := mk_config "xxx" "example.com" 80 "/foo/bar.html".

Lemma managed_rule_priorities (names : list string) (i : nat) :
  map w_priority (map_index_from managed_rule i names)
  = map (fun k => Z.of_nat k + 2)%Z (seq i (length names)).
Proof.
  revert i. induction names as [|x r IH]; intros i; simpl; [reflexivity|].
  rewrite IH. reflexivity.
Qed.

Lemma shifted_seq_sorted (i n : nat) :
  StronglySorted Z.lt (map (fun k => Z.of_nat k + 2)%Z (seq i n)).
Proof.
  revert i. induction n as [|n IH]; intros i; simpl; constructor.
  - apply IH.
  - apply Forall_forall. intros z Hz. apply in_map_iff in Hz as [k [<- Hk]].
    apply in_seq in Hk. lia.
Qed.

(** *** References, dependents and rule sets *)

(** The constructs a value refers to: object references, attribute tokens
    and secret references. *)
Fixpoint value_refs (v : value) : list string :=
  match v with
  | VRef id => [id]
  | VAttr id _ => [id]
  | VSecret id _ => [id]
  | VList l =>
      (fix go (l : list value) : list string :=
         match l with
         | [] => []
         | x :: r => (value_refs x ++ go r)%list
         end) l
  | VObj fs =>
      (fix go (fs : list (string * value)) : list string :=
         match fs with
         | [] => []
         | (_, x) :: r => (value_refs x ++ go r)%list
         end) fs
  | _ => []
  end.

Definition node_refs (n : node) : list string := value_refs (VObj (n_props n)).

(** Every construct referenced in the properties of a construct is one of
    its declared dependencies. *)
Definition refs_declared (g : graph) : bool :=
  forallb (fun n => forallb (fun r => existsb (String.eqb r) (n_deps n)) (node_refs n))
          (g_nodes g).

(** The constructs that list [id] among their dependencies. *)
Definition dependents (g : graph) (id : string) : list string :=
  map n_id (filter (fun n => existsb (String.eqb id) (n_deps n)) (g_nodes g)).

(** The ingress rules of the security group [sg]. *)
Definition rules_of (g : graph) (sg : string) : list ingress_rule :=
  filter (fun r => String.eqb (r_group r) sg) (g_rules g).

Fixpoint strings_nodup (l : list string) : bool :=
  match l with
  | [] => true
  | x :: r => negb (existsb (String.eqb x) r) && strings_nodup r
  end.

Lemma strings_nodup_NoDup (l : list string) : strings_nodup l = true -> NoDup l.
Proof.
  induction l as [|x r IH]; simpl; intros H; constructor.
  - apply andb_true_iff in H as [H _]. apply negb_true_iff in H.
    intros Hin. assert (existsb (String.eqb x) r = true) as E.
    { apply existsb_exists. exists x. split; [exact Hin | apply String.eqb_refl]. }
    congruence.
  - apply andb_true_iff in H as [_ H]. exact (IH H).
Qed.

Lemma refs_declared_sound (g : graph) :
  refs_declared g = true ->
  forall n r, In n (g_nodes g) -> In r (node_refs n) -> In r (n_deps n).
Proof.
  unfold refs_declared. intros H n r Hn Hr.
  rewrite forallb_forall in H. specialize (H n Hn).
  rewrite forallb_forall in H. specialize (H r Hr).
  apply existsb_exists in H as [x [Hx E]]. apply String.eqb_eq in E. subst x. exact Hx.
Qed.

Lemma string_length_append (s t : string) : String.length (s ++ t) = String.length s + String.length t.
Proof. induction s as [|c s IH]; simpl; [reflexivity | rewrite IH; reflexivity]. Qed.

Lemma string_append_r_inj (s1 s2 t : string) : s1 ++ t = s2 ++ t -> s1 = s2.
Proof.
  revert s2. induction s1 as [|c1 r1 IH]; intros [|c2 r2] H; simpl in H.
  - reflexivity.
  - apply (f_equal String.length) in H. simpl in H. rewrite string_length_append in H. lia.
  - apply (f_equal String.length) in H. simpl in H. rewrite string_length_append in H. lia.
  - injection H as -> H. rewrite (IH r2 H). reflexivity.
Qed.

Lemma managed_rule_fields (names : list string) (i : nat) :
  map (fun r => (w_name r, w_metric_name r)) (map_index_from managed_rule i names)
  = map (fun n => (n, n ++ "Metric")) names
  /\ Forall (fun r => w_override_none r = true /\ w_vendor r = "AWS"
                      /\ w_sampled r = true /\ w_metrics r = true)
            (map_index_from managed_rule i names).
Proof.
  revert i. induction names as [|x r IH]; intros i; simpl; [split; constructor|].
  destruct (IH (S i)) as [H1 H2]. rewrite H1. split; [reflexivity|].
  constructor; [repeat split | exact H2].
Qed.

Lemma find_app_absent {A} (f : A -> bool) (l l' : list A) :
  existsb f l = false -> find f (l ++ l') = find f l'.
Proof.
  induction l as [|x r IH]; simpl; intros H; [reflexivity|].
  apply orb_false_iff in H as [H1 H2]. rewrite H1. exact (IH H2).
Qed.

Lemma assoc_set_prop (key : string) (v : value) (ps : list (string * value)) :
  assoc key (set_prop key v ps) = Some v.
Proof.
  unfold set_prop. induction ps as [|[k x] r IH]; simpl.
  - rewrite String.eqb_refl. reflexivity.
  - destruct (String.eqb k key) eqn:E; simpl; [exact IH|].
    rewrite E. exact IH.
Qed.

(** ** Claims *)

(** C1: in every build, the database username and password are in the
    graph only as references to fields of the generated secret of the
    relational cluster ([Database]), and only in the environment bindings
    DB_USER and DB_PASSWORD of the managed service: no other property of
    any construct carries a credential, and neither binding is a literal. *)
Theorem credentials_only_secret_refs_in_service_env (cfg : config) :
  on_build cfg (fun g =>
    graph_secret_refs g =
      [("Service", (service_env_path "DB_USER", ("Database", "username")));
       ("Service", (service_env_path "DB_PASSWORD", ("Database", "password")))]
    /\ service_env g "DB_USER" = Some (VSecret "Database" "username")
    /\ service_env g "DB_PASSWORD" = Some (VSecret "Database" "password")
    /\ kind_of g "Service" = Some LoadBalancedFargateService
    /\ kind_of g "Database" = Some DatabaseCluster).
Proof.
  destruct cfg; vm_compute; repeat split.
Qed.

(** C7: the scalable task count of the service is bounded by
    [minCapacity = 1, maxCapacity = 3] and exactly two scaling policies
    are attached to it: CPU utilization with target 50 and request count
    per target with target 10000. *)
Theorem scaling_bounds_and_two_policies (cfg : config) :
  on_build cfg (fun g =>
    map (fun t => (n_id t, n_deps t)) (nodes_of_kind g ScalableTaskCount)
      = [("Service/Service/TaskCount", ["Service"])]
    /\ kind_of g "Service" = Some LoadBalancedFargateService
    /\ scaling_bounds g = Some (1, 3)%Z
    /\ length (nodes_of_kind g ScalingPolicy) = 2
    /\ map (fun p => (prop p "predefinedMetric", policy_target p))
           (policies_of g "Service/Service/TaskCount")
       = [(Some (VStr "ECSServiceAverageCPUUtilization"), Some (VNum 50));
          (Some (VStr "ALBRequestCountPerTarget"), Some (VNum 10000))]).
Proof.
  destruct cfg; vm_compute; repeat split.
Qed.

(** C9: the schema name bound into the environment of the service
    (DB_NAME = "wordpress") differs from the default database name of the
    relational cluster ("mysql"). *)
Theorem db_name_differs_from_default_database (cfg : config) :
  on_build cfg (fun g =>
    service_env g "DB_NAME" = Some (VStr "wordpress")
    /\ option_map (fun n => prop n "defaultDatabaseName") (find_node g "Database")
       = Some (Some (VStr "mysql"))
    /\ service_env g "DB_NAME"
       <> match find_node g "Database" with
          | Some n => prop n "defaultDatabaseName"
          | None => None
          end).
Proof.
  destruct cfg; vm_compute; repeat split; discriminate.
Qed.

(** C10: the desired task count of the service (2) lies within the bounds
    of its scalable task count, [1, 3]. *)
Theorem desired_count_within_scaling_bounds (cfg : config) :
  on_build cfg (fun g =>
    desired_count g = Some 2%Z /\ scaling_bounds g = Some (1, 3)%Z
    /\ exists lo hi d, scaling_bounds g = Some (lo, hi) /\ desired_count g = Some d
                       /\ (lo <= d <= hi)%Z).
Proof.
  destruct cfg; vm_compute.
  split; [reflexivity | split; [reflexivity |]].
  exists 1%Z, 3%Z, 2%Z; repeat split; discriminate.
Qed.

(** C4: after the build pass, the security group of the relational
    cluster admits the network identity of the service on port 3306 and
    the security group of the cache cluster admits it on port 6379; every
    rule's peer is the network identity of a managed service that received
    the rule's group as a dependency; no rule set holds a duplicate
    (group, peer, port). *)
Theorem security_group_ingress_rules (cfg : config) :
  on_build cfg (fun g =>
    In (mk_rule "RdsSecurityGroup" (service_security_group "Service") (Tcp 3306)) (g_rules g)
    /\ In (mk_rule "CacheSecurityGroup" (service_security_group "Service") (Tcp 6379)) (g_rules g)
    /\ kind_of g "Service" = Some LoadBalancedFargateService
    /\ kind_of g "RdsSecurityGroup" = Some SecurityGroup
    /\ kind_of g "CacheSecurityGroup" = Some SecurityGroup
    /\ option_map (fun n => prop n "securityGroups") (find_node g "Database")
       = Some (Some (VList [VRef "RdsSecurityGroup"]))
    /\ option_map (fun n => prop n "vpcSecurityGroupIds") (find_node g "CacheCluster")
       = Some (Some (VList [VAttr "CacheSecurityGroup" "securityGroupId"]))
    /\ (forall r, In r (g_rules g) ->
          exists s, In s (g_nodes g) /\ n_kind s = LoadBalancedFargateService
                    /\ r_peer r = service_security_group (n_id s) /\ In (r_group r) (n_deps s))
    /\ NoDup (g_rules g)).
Proof.
  pose proof (build_rules_facts cfg) as F.
  assert (on_build cfg (fun g =>
    In (mk_rule "RdsSecurityGroup" (service_security_group "Service") (Tcp 3306)) (g_rules g)
    /\ In (mk_rule "CacheSecurityGroup" (service_security_group "Service") (Tcp 6379)) (g_rules g)
    /\ kind_of g "Service" = Some LoadBalancedFargateService
    /\ kind_of g "RdsSecurityGroup" = Some SecurityGroup
    /\ kind_of g "CacheSecurityGroup" = Some SecurityGroup
    /\ option_map (fun n => prop n "securityGroups") (find_node g "Database")
       = Some (Some (VList [VRef "RdsSecurityGroup"]))
    /\ option_map (fun n => prop n "vpcSecurityGroupIds") (find_node g "CacheCluster")
       = Some (Some (VList [VAttr "CacheSecurityGroup" "securityGroupId"])))) as C.
  { destruct cfg; vm_compute; repeat split; auto. }
  unfold on_build in *. destruct (build cfg) as [g|e]; [|contradiction].
  destruct F as [F1 F2]. destruct C as (C1 & C2 & C3 & C4 & C5 & C6 & C7).
  repeat (split; [assumption|]). split.
  - intros r Hr. apply rule_from_dependent_service_sound.
    rewrite forallb_forall in F1. exact (F1 r Hr).
  - exact (rules_nodup_NoDup _ F2).
Qed.

(** C5: the build pass constructs the zone import, the network, the web
    ACL, the bucket, the data tiers (each security group before its
    cluster), the compute cluster, the certificate, the service (with its
    scaling target, policies and task-role policy), the distribution and
    the DNS record, in that order; every dependency of a construct was
    constructed strictly earlier, and the dependency graph is acyclic. *)
Theorem build_order_acyclic (cfg : config) :
  on_build cfg (fun g =>
    map n_kind (g_nodes g) =
      [HostedZoneImport; Vpc; WebACL; Bucket; SecurityGroup; DatabaseCluster;
       SecurityGroup; CacheCluster; EcsCluster; Certificate; LoadBalancedFargateService;
       ScalableTaskCount; ScalingPolicy; ScalingPolicy; IamPolicy; Distribution; ARecord]
    /\ deps_constructed_earlier g
    /\ forall a, ~ depends_on g a a).
Proof.
  pose proof (build_order_facts cfg) as F.
  unfold on_build in *. destruct (build cfg) as [g|e]; [|contradiction].
  destruct F as [F1 F2]. split; [exact F1 | split].
  - exact (deps_before_earlier g F2).
  - exact (deps_before_acyclic g F2).
Qed.

(** C6: two build passes from the same configuration both succeed and
    yield graphs with the same constructs, the same properties, the same
    dependency edges and the same ingress rules. *)
Theorem build_twice_identical (cfg : config) :
  on_build cfg (fun g1 => on_build cfg (fun g2 =>
    graph_attrs g1 = graph_attrs g2 /\ graph_edges g1 = graph_edges g2
    /\ g_rules g1 = g_rules g2)).
Proof.
  destruct (build_succeeds cfg) as [g Hg].
  unfold on_build. rewrite Hg. repeat split.
Qed.

(** C2 (counterexample): a web ACL built with two rules at priority 2 is
    constructed without error; the construction has no priority check
    and no PolicyConflictError. *)
Lemma web_acl_duplicate_priority_accepted :
  let rules := [managed_rule "AWSManagedRulesCommonRuleSet" 0;
                managed_rule "AWSManagedRulesPHPRuleSet" 0] in
  map w_priority rules = [2; 2]%Z
  /\ (forall e, CfnWebACL "WebAcl" rules empty_graph <> Err e)
  /\ exists g, CfnWebACL "WebAcl" rules empty_graph = Ok ("WebAcl", g).
Proof.
  simpl. split; [reflexivity | split].
  - intros e. vm_compute. discriminate.
  - eexists. vm_compute. reflexivity.
Qed.

(** C2: the rules of the web ACL built by [createWafWebAcl] have the
    priorities [index + 2], that is 2, 3, 4, 5: pairwise distinct and
    strictly increasing, and so for any list of rule names mapped the same
    way.  The construction itself checks no priorities: [CfnWebACL]
    accepts any rule list. *)
Theorem web_acl_priorities_increasing (cfg : config) :
  map w_priority waf_rules = [2; 3; 4; 5]%Z
  /\ StronglySorted Z.lt (map w_priority waf_rules)
  /\ NoDup (map w_priority waf_rules)
  /\ (forall names, StronglySorted Z.lt (map w_priority (map_index managed_rule names)))
  /\ on_build cfg (fun g =>
       map (fun w => prop w "rules") (nodes_of_kind g WebACL)
       = [Some (VList (map waf_rule_value waf_rules))])
  /\ (forall rules, exists g, CfnWebACL "WebAcl" rules empty_graph = Ok ("WebAcl", g)).
Proof.
  split; [reflexivity|]. split.
  - unfold waf_rules, map_index. rewrite managed_rule_priorities. apply shifted_seq_sorted.
  - split.
    + simpl. repeat constructor; simpl; intuition lia.
    + split; [|split].
      * intros names. unfold map_index. rewrite managed_rule_priorities.
        apply shifted_seq_sorted.
      * destruct cfg; vm_compute; reflexivity.
      * intros rules. eexists. reflexivity.
Qed.

(** C3 (counterexample): for the configuration with zone name
    example.com, the distribution is not bound to *.example.com. *)
Lemma distribution_not_bound_to_wildcard :
  on_build scenario_A_config (fun g =>
    forall d, In d (nodes_of_kind g Distribution) -> ~ In "*.example.com" (domain_names_of d)).
Proof.
  vm_compute. intros d [<-|[]]. simpl. intros [H|[]]. discriminate.
Qed.

(** C3: for the configuration with zone name example.com, the graph has
    exactly one distribution, bound to the single domain name example.com,
    and exactly one certificate, whose domain set is example.com and
    *.example.com; the distribution references that certificate, whose
    domain set covers the distribution's name. *)
Theorem distribution_bound_to_zone_name :
  on_build scenario_A_config (fun g =>
    exists d c, nodes_of_kind g Distribution = [d] /\ nodes_of_kind g Certificate = [c]
      /\ domain_names_of d = ["example.com"]
      /\ certificate_domains c = ["example.com"; "*.example.com"]
      /\ prop d "certificate" = Some (VRef (n_id c))
      /\ incl (domain_names_of d) (certificate_domains c)).
Proof.
  vm_compute. do 2 eexists. split; [reflexivity | split; [reflexivity|]].
  vm_compute. repeat split. intros x [<-|[]]. left. reflexivity.
Qed.

(** C8: the graph has exactly one distribution; its origin uses the
    https-only protocol policy while declaring both ports (80 and 443), so
    every origin connection is made over https on port 443; its viewer
    policy redirects every http request to https; it references exactly
    one certificate and one web ACL, each the only one of its kind. *)
Theorem distribution_https_policies (cfg : config) :
  on_build cfg (fun g =>
    exists d v, nodes_of_kind g Distribution = [d]
      /\ view_distribution d = Some v
      /\ dv_origin_policy v = HTTPS_ONLY /\ dv_http_port v = 80%Z /\ dv_https_port v = 443%Z
      /\ (forall s, origin_connection (dv_origin_policy v) (dv_http_port v) (dv_https_port v) s
                    = (Https, 443%Z))
      /\ dv_viewer_policy v = REDIRECT_TO_HTTPS
      /\ viewer_response (dv_viewer_policy v) Http = RedirectTo Https
      /\ (forall s, viewer_response (dv_viewer_policy v) s = Forward -> s = Https)
      /\ prop d "certificate" = Some (VRef "Certificate")
      /\ prop d "webAclId" = Some (VAttr "WebAcl" "attrArn")
      /\ deps_of_kind g d Certificate = ["Certificate"]
      /\ deps_of_kind g d WebACL = ["WebAcl"]
      /\ length (nodes_of_kind g Certificate) = 1
      /\ length (nodes_of_kind g WebACL) = 1).
Proof.
  destruct cfg; vm_compute. do 2 eexists. split; [reflexivity|].
  vm_compute. split; [reflexivity|].
  repeat split; try reflexivity.
  intros [] H; [discriminate | reflexivity].
Qed.

(** ** Further properties of the stack *)



(** Every construct the properties of a construct refer to (by object
    reference, attribute token or secret reference) is one of the
    dependencies its builder wired into it. *)
Theorem references_are_dependencies (cfg : config) :
  on_build cfg (fun g =>
    forall n r, In n (g_nodes g) -> In r (node_refs n) -> In r (n_deps n)).
Proof.
  assert (on_build cfg (fun g => refs_declared g = true)) as H
    by (destruct cfg; vm_compute; reflexivity).
  unfold on_build in *. destruct (build cfg) as [g|]; [|contradiction].
  exact (refs_declared_sound g H).
Qed.


(** The service's environment takes DB_HOST from the endpoint of the
    relational cluster and CACHE_HOST from the endpoint of the cache
    cluster, both dependencies of the service; the container port and the
    health-check path of the service are the configured ones. *)
Theorem service_wiring_from_config (cfg : config) :
  on_build cfg (fun g =>
    service_env g "DB_HOST" = Some (VAttr "Database" "clusterEndpoint.hostname")
    /\ service_env g "CACHE_HOST" = Some (VAttr "CacheCluster" "attrRedisEndpointAddress")
    /\ kind_of g "Database" = Some DatabaseCluster
    /\ kind_of g "CacheCluster" = Some CacheCluster
    /\ option_map (fun s => (existsb (String.eqb "Database") (n_deps s),
                             existsb (String.eqb "CacheCluster") (n_deps s)))
                  (find_node g "Service") = Some (true, true)
    /\ option_map (fun s => node_path s ["taskImageOptions"; "containerPort"]) (find_node g "Service")
       = Some (Some (VNum (CONTAINER_PORT cfg)))
    /\ option_map (fun s => node_path s ["healthCheck"; "path"]) (find_node g "Service")
       = Some (Some (VStr (CONTAINER_HEALTHCHECK_PATH cfg)))).
Proof.
  destruct cfg; vm_compute; repeat split.
Qed.

(** The VPC is a dependency of the two security groups, the relational
    cluster and the ECS cluster only: the cache cluster receives no VPC
    (its only dependency is its security group and it sets neither a VPC
    nor a cache subnet group). *)
Theorem cache_cluster_outside_vpc_wiring (cfg : config) :
  on_build cfg (fun g =>
    dependents g "Vpc" = ["RdsSecurityGroup"; "Database"; "CacheSecurityGroup"; "Cluster"]
    /\ option_map n_deps (find_node g "CacheCluster") = Some ["CacheSecurityGroup"]
    /\ option_map (fun n => (prop n "vpc", prop n "cacheSubnetGroupName"))
                  (find_node g "CacheCluster") = Some (None, None)
    /\ option_map (fun n => prop n "vpc") (find_node g "Database") = Some (Some (VRef "Vpc"))).
Proof.
  destruct cfg; vm_compute; repeat split.
Qed.

(** The bucket is a dependency only of the service and of the policy of
    the service's task role that grants read and write on it; the
    distribution, the DNS record and every other construct stay apart
    from it. *)
Theorem bucket_reached_only_by_task_role (cfg : config) :
  on_build cfg (fun g =>
    dependents g "Bucket" = ["Service"; "Service/TaskDef/TaskRole/DefaultPolicy"]
    /\ option_map (fun n => (n_kind n, prop n "grantReadWrite", prop n "role"))
                  (find_node g "Service/TaskDef/TaskRole/DefaultPolicy")
       = Some (IamPolicy, Some (VRef "Bucket"), Some (VAttr "Service" "taskDefinition.taskRole"))).
Proof.
  destruct cfg; vm_compute; repeat split.
Qed.

(** The imported zone is used by the certificate (DNS validation), the
    distribution and the DNS record only; the zone name it carries is the
    certificate's domain name and the distribution's domain name, and the
    record is an alias to the distribution. *)
Theorem zone_wiring (cfg : config) :
  on_build cfg (fun g =>
    dependents g "Zone" = ["Certificate"; "Distribution"; "ARecord"]
    /\ option_map (fun n => prop n "zoneName") (find_node g "Zone")
       = Some (Some (VStr (ZONE_NAME cfg)))
    /\ option_map (fun n => (prop n "domainName", node_path n ["validation"; "hostedZone"]))
                  (find_node g "Certificate")
       = Some (Some (VStr (ZONE_NAME cfg)), Some (VRef "Zone"))
    /\ option_map domain_names_of (find_node g "Distribution") = Some [ZONE_NAME cfg]
    /\ option_map (fun n => (node_path n ["target"; "alias"; "cloudFrontTarget"], prop n "zone"))
                  (find_node g "ARecord")
       = Some (Some (VRef "Distribution"), Some (VRef "Zone"))).
Proof.
  destruct cfg; vm_compute; repeat split.
Qed.


(** Distinct rule-group names give distinct metric names. *)
Theorem web_acl_metric_names_distinct (names : list string) (H : NoDup names) :
  NoDup (map w_metric_name (map_index managed_rule names)).
Proof.
  destruct (managed_rule_fields names 0) as [E _].
  assert (map w_metric_name (map_index managed_rule names) = map (fun n => n ++ "Metric") names)
    as E2.
  { apply (f_equal (map snd)) in E. rewrite !map_map in E. exact E. }
  rewrite E2. clear E E2.
  induction H as [|x l Hx Hl IH]; simpl; constructor; [|exact IH].
  intros Hin. apply in_map_iff in Hin as [y [Hy Hyl]].
  apply string_append_r_inj in Hy. subst y. contradiction.
Qed.

Lemma web_acl_metric_names_distinct_witness :
  NoDup managed_rule_names
  /\ NoDup (map w_metric_name (map_index managed_rule managed_rule_names)).
Proof.
  split.
  - apply strings_nodup_NoDup. reflexivity.
  - apply web_acl_metric_names_distinct. apply strings_nodup_NoDup. reflexivity.
Defined.



